(** * rise-social: the two navigation bars

    A shallow embedding of the script blocks of
    [components/layout/Navbar.vue] (the public navbar) and
    [components/layout/DashboardNavbar.vue] (the dashboard navbar):
    the display state derived from the session, the navigation item
    lists derived from the route path, and the transient UI state driven
    by route changes, clicks, scrolling and the component lifecycle.

    Conventions.
    - A JavaScript string is a [string]: a sequence of code units below
      256. [trim] is the ECMAScript function on these (white space is
      TAB, LF, VT, FF, CR, SPACE and NO-BREAK SPACE). [toUpperCase] is
      the ECMAScript function on the ASCII range (a-z are mapped to A-Z,
      every other code unit is kept); a theorem that states which letter
      it returns assumes an ASCII letter.
    - A reactive [ref] is a field of the component state; a [computed] is
      a function of what it reads.
    - [window.scrollY] is an integer number of pixels.
    - The framework's composables ([useRoute], [useAuth], [navigateTo])
      are the environment: the session and the status are arguments, the
      calls of [signOut] and [navigateTo] are recorded in a trace. *)

From Stdlib Require Import String Ascii List Bool Arith ZArith Lia.
Import ListNotations.
Open Scope string_scope.
Open Scope list_scope.

(* ===================================================================== *)
(** ** JavaScript values and string primitives *)
(* ===================================================================== *)

Module Js.

(** A possibly absent string property, such as [user.firstName]. *)
Inductive Value : Type :=
| Undefined
| Null
| Str (s : string).

(** Interpolation in a template literal: [`${v}`]. *)
Definition toString (v : Value) : string :=
  match v with
  | Undefined => "undefined"
  | Null => "null"
  | Str s => s
  end.

(** [v?.[0]]: [undefined] on a nullish receiver and past the end of the
    string, a one-unit string otherwise. *)
Definition optIndex0 (v : Value) : Value :=
  match v with
  | Str (String c _) => Str (String c "")
  | _ => Undefined
  end.

(** [v || d] for a string default: [undefined], [null] and the empty
    string are falsy. *)
Definition orElse (v : Value) (d : string) : string :=
  match v with
  | Str (String c r) => String c r
  | _ => d
  end.

(** [s || d] on strings. *)
Definition strOrElse (s d : string) : string :=
  match s with
  | "" => d
  | _ => s
  end.

Definition isWhiteSpace (c : ascii) : bool :=
  let n := nat_of_ascii c in
  (((9 <=? n) && (n <=? 13)) || (n =? 32) || (n =? 160))%nat.

Fixpoint trimStart (s : string) : string :=
  match s with
  | "" => ""
  | String c r => if isWhiteSpace c then trimStart r else s
  end.

Fixpoint trimEnd (s : string) : string :=
  match s with
  | "" => ""
  | String c r =>
      match trimEnd r with
      | "" => if isWhiteSpace c then "" else String c ""
      | r' => String c r'
      end
  end.

(** [s.trim()]. *)
Definition trim (s : string) : string := trimEnd (trimStart s).

Definition toUpperCaseUnit (c : ascii) : ascii :=
  let n := nat_of_ascii c in
  if ((97 <=? n) && (n <=? 122))%nat then ascii_of_nat (n - 32) else c.

(** The code units on which [toUpperCaseUnit] is the ECMAScript
    mapping. *)
Definition isAsciiUnit (c : ascii) : bool := (nat_of_ascii c <? 128)%nat.

(** [s.toUpperCase()]. *)
Fixpoint toUpperCase (s : string) : string :=
  match s with
  | "" => ""
  | String c r => String (toUpperCaseUnit c) (toUpperCase r)
  end.

(** [s.startsWith(search)]. *)
Definition startsWith (s search : string) : bool := String.prefix search s.

(** [a === b] on strings. *)
Definition strictEq (a b : string) : bool := String.eqb a b.

End Js.

(* ===================================================================== *)
(** ** The session, as [useAuth] hands it out *)
(* ===================================================================== *)

Module Auth.

Record User : Type := mkUser {
  firstName : Js.Value;
  lastName : Js.Value
}.

(** [session.value] when it is an object; [sessionUser] is its [user]
    property, [None] when that property is missing or falsy. *)
Record SessionData : Type := mkSessionData {
  sessionUser : option User
}.

(** [session.value]: [None] when it is [null] or [undefined]. *)
Definition Session : Type := option SessionData.

(** [status.value]. *)
Inductive Status : Type :=
| Loading
| Authenticated
| Unauthenticated.

(** A session whose user carries the two name properties [first] and
    [last]. *)
Definition sessionOf (first last : Js.Value) : Session :=
  Some {| sessionUser := Some {| firstName := first; lastName := last |} |}.

(** A name property that is not there: missing, [null], or empty. *)
Definition absentName (v : Js.Value) : Prop :=
  v = Js.Undefined \/ v = Js.Null \/ v = Js.Str "".

End Auth.

(* ===================================================================== *)
(** ** Global event targets and their listener lists *)
(* ===================================================================== *)

Module Dom.

Inductive EventTarget : Type := Window | Document.

Inductive EventType : Type := ClickType | ScrollType.

(** An element, as far as [closest] looks at it: the tag names of the
    element itself and of its ancestors, innermost first. *)
Definition Element : Type := list string.

(** [el.closest(tag)] for a type selector: the nearest inclusive
    ancestor with that tag name, [None] for [null]. *)
Fixpoint closest (tag : string) (el : Element) : option Element :=
  match el with
  | [] => None
  | t :: ancestors =>
      if String.eqb t tag then Some el else closest tag ancestors
  end.

Inductive Event : Type :=
| ClickEvent (target : Element)
| ScrollEvent.

Definition eventType (e : Event) : EventType :=
  match e with
  | ClickEvent _ => ClickType
  | ScrollEvent => ScrollType
  end.

Definition targetEqb (a b : EventTarget) : bool :=
  match a, b with
  | Window, Window | Document, Document => true
  | _, _ => false
  end.

Definition typeEqb (a b : EventType) : bool :=
  match a, b with
  | ClickType, ClickType | ScrollType, ScrollType => true
  | _, _ => false
  end.

Section Registry.

(** The callbacks a component hands to the browser, compared by
    identity. *)
Context {L : Type} (sameListener : L -> L -> bool).

Definition Registration : Type := EventTarget * EventType * L.

Definition sameRegistration (a b : Registration) : bool :=
  let '(t1, ty1, l1) := a in
  let '(t2, ty2, l2) := b in
  targetEqb t1 t2 && typeEqb ty1 ty2 && sameListener l1 l2.

(** [target.addEventListener(type, l)]: appended, unless the same
    callback is already registered for that target and type. *)
Definition addEventListener (t : EventTarget) (ty : EventType) (l : L)
    (regs : list Registration) : list Registration :=
  if existsb (sameRegistration (t, ty, l)) regs then regs
  else regs ++ [(t, ty, l)].

(** [target.removeEventListener(type, l)]. *)
Definition removeEventListener (t : EventTarget) (ty : EventType) (l : L)
    (regs : list Registration) : list Registration :=
  filter (fun r => negb (sameRegistration (t, ty, l) r)) regs.

(** The callbacks an event of type [ty] on [t] invokes, in
    registration order. *)
Definition listenersFor (t : EventTarget) (ty : EventType)
    (regs : list Registration) : list L :=
  map snd
    (filter (fun r => targetEqb (fst (fst r)) t && typeEqb (snd (fst r)) ty)
            regs).

End Registry.

Arguments Registration L : clear implicits.

(** An element with its identity: [nodeTag] is its tag name, [nodeId]
    tells it from every other element of the document. *)
Record Node : Type := mkNode {
  nodeTag : string;
  nodeId : nat
}.

(** A click target and its ancestors, innermost first. *)
Definition NodePath : Type := list Node.

(** What [closest] sees of such a target. *)
Definition tagsOf (target : NodePath) : Element := map nodeTag target.

(** Whether the target is within the element [h]: the target is [h] or
    one of its descendants. *)
Definition within (h : nat) (target : NodePath) : bool :=
  existsb (fun n => Nat.eqb (nodeId n) h) target.

End Dom.

(* ===================================================================== *)
(** ** Asynchronous functions, with the trace of what they do *)
(* ===================================================================== *)

Module Async.

(** What a logout handler does that one can observe from outside. *)
Inductive Action : Type :=
| SignOut
| SetMobileMenuOpen (b : bool)
| NavigateTo (p : string).

(** How a promise settles. *)
Inductive Settled (A : Type) : Type :=
| Fulfilled (a : A)
| Rejected.
Arguments Fulfilled {A} a.
Arguments Rejected {A}.

(** A computation over the component state [S]: the state it leaves,
    the actions it performed, in order, and how it settled. *)
Definition t (S A : Type) : Type := S -> S * list Action * Settled A.

Definition ret {S A : Type} (a : A) : t S A :=
  fun s => (s, [], Fulfilled a).

Definition bind {S A B : Type} (m : t S A) (k : A -> t S B) : t S B :=
  fun s =>
    let '(s1, tr1, r) := m s in
    match r with
    | Fulfilled a =>
        let '(s2, tr2, r2) := k a s1 in (s2, tr1 ++ tr2, r2)
    | Rejected => (s1, tr1, Rejected)
    end.

(** [await m]: a rejection of [m] leaves the enclosing function. *)
Definition await {S A : Type} (m : t S A) : t S A := m.

(** [m] called as a statement, its promise dropped: whatever becomes of
    it, the caller goes on. *)
Definition detached {S A : Type} (m : t S A) : t S unit :=
  fun s => let '(s1, tr1, _) := m s in (s1, tr1, Fulfilled tt).

(** A write to a ref that the trace records. *)
Definition assign {S : Type} (a : Action) (f : S -> S) : t S unit :=
  fun s => (f s, [a], Fulfilled tt).

(** The two capabilities of the framework, by how their promises
    settle. *)
Record Env : Type := mkEnv {
  signOutSettles : Settled unit;
  navigateToSettles : Settled unit
}.

Definition signOut {S : Type} (env : Env) : t S unit :=
  fun s => (s, [SignOut], signOutSettles env).

Definition navigateTo {S : Type} (env : Env) (p : string) : t S unit :=
  fun s => (s, [NavigateTo p], navigateToSettles env).

Definition finalState {S A : Type} (r : S * list Action * Settled A) : S :=
  fst (fst r).

Definition trace {S A : Type} (r : S * list Action * Settled A)
    : list Action :=
  snd (fst r).

Definition outcome {S A : Type} (r : S * list Action * Settled A)
    : Settled A :=
  snd r.

End Async.

Declare Scope async_scope.
Delimit Scope async_scope with async.
Notation "m1 ;; m2" := (Async.bind m1 (fun _ => m2))
  (at level 61, right associativity) : async_scope.

(** The phases of a component instance. *)
Inductive Lifecycle : Type := Created | Mounted | Unmounted.

(* ===================================================================== *)
(** ** components/layout/Navbar.vue *)
(* ===================================================================== *)

Module Navbar.

Import Dom.

(** *** Computed properties of the session *)

(** [computed(() => session.value?.user || null)] *)
Definition user (session : Auth.Session) : option Auth.User :=
  match session with
  | Some d => Auth.sessionUser d
  | None => None
  end.

(** [computed(() => status.value === 'authenticated')] *)
Definition isAuthenticated (status : Auth.Status) : bool :=
  match status with
  | Auth.Authenticated => true
  | _ => false
  end.

Definition fullName (session : Auth.Session) : string :=
  match user session with
  | None => ""
  | Some u =>
      Js.trim (Js.toString (Auth.firstName u) ++ " "
               ++ Js.toString (Auth.lastName u))%string
  end.

Definition initials (session : Auth.Session) : string :=
  match user session with
  | None => "U"
  | Some u =>
      let first := Js.orElse (Js.optIndex0 (Auth.firstName u)) "" in
      let last := Js.orElse (Js.optIndex0 (Auth.lastName u)) "" in
      Js.strOrElse (Js.toUpperCase (first ++ last)%string) "U"
  end.

(** *** The navigation list *)

Record NavigationMenu : Type := mkMenu {
  id : string;
  name : string;
  path : string;
  isActive : bool
}.

(** [computed(() => [ ... ])], reading [route.path]. *)
Definition navigationMenus (routePath : string) : list NavigationMenu :=
  [ {| id := "home"; name := "Home"; path := "/";
       isActive := Js.strictEq routePath "/" |};
    {| id := "courses"; name := "Courses"; path := "/courses";
       isActive := Js.startsWith routePath "/courses" |};
    {| id := "opportunities"; name := "Jobs"; path := "/opportunities";
       isActive := Js.startsWith routePath "/opportunities" |};
    {| id := "programs"; name := "Programs"; path := "/programs";
       isActive := Js.startsWith routePath "/programs" |};
    {| id := "about-us"; name := "About Us"; path := "/about-us";
       isActive := Js.startsWith routePath "/about-us" |};
    {| id := "contact"; name := "Contact Us"; path := "/contact";
       isActive := Js.startsWith routePath "/contact" |} ].

(** *** Component state *)

(** The two callbacks given to [addEventListener]. [ClickOutside] is
    the arrow function written in place in [onMounted]; an instance is
    mounted once, so one name stands for it. *)
Inductive Listener : Type := ClickOutside | HandleScroll.

Definition sameListener (a b : Listener) : bool :=
  match a, b with
  | ClickOutside, ClickOutside | HandleScroll, HandleScroll => true
  | _, _ => false
  end.

(** The callbacks given to [onUnmounted]. *)
Inductive UnmountedHook : Type := CleanUpScrollListener.

Record State : Type := mkState {
  routePath : string;                       (* route.path *)
  scrollY : Z;                              (* window.scrollY *)
  listeners : list (Registration Listener); (* of window and document *)
  mobileMenuOpen : bool;
  isScrolled : bool;
  showLoginDialog : bool;
  lifecycle : Lifecycle;
  unmountedHooks : list UnmountedHook
}.

Definition setRoutePath (p : string) (st : State) : State :=
  mkState p (scrollY st) (listeners st) (mobileMenuOpen st) (isScrolled st)
          (showLoginDialog st) (lifecycle st) (unmountedHooks st).

Definition setScrollY (y : Z) (st : State) : State :=
  mkState (routePath st) y (listeners st) (mobileMenuOpen st) (isScrolled st)
          (showLoginDialog st) (lifecycle st) (unmountedHooks st).

Definition setListeners (ls : list (Registration Listener)) (st : State)
    : State :=
  mkState (routePath st) (scrollY st) ls (mobileMenuOpen st) (isScrolled st)
          (showLoginDialog st) (lifecycle st) (unmountedHooks st).

Definition setMobileMenuOpen (b : bool) (st : State) : State :=
  mkState (routePath st) (scrollY st) (listeners st) b (isScrolled st)
          (showLoginDialog st) (lifecycle st) (unmountedHooks st).

Definition setIsScrolled (b : bool) (st : State) : State :=
  mkState (routePath st) (scrollY st) (listeners st) (mobileMenuOpen st) b
          (showLoginDialog st) (lifecycle st) (unmountedHooks st).

Definition setShowLoginDialog (b : bool) (st : State) : State :=
  mkState (routePath st) (scrollY st) (listeners st) (mobileMenuOpen st)
          (isScrolled st) b (lifecycle st) (unmountedHooks st).

Definition setLifecycle (l : Lifecycle) (st : State) : State :=
  mkState (routePath st) (scrollY st) (listeners st) (mobileMenuOpen st)
          (isScrolled st) (showLoginDialog st) l (unmountedHooks st).

(** *** Handlers *)

Definition toggleMobileMenu (st : State) : State :=
  setMobileMenuOpen (negb (mobileMenuOpen st)) st.

Definition openLoginDialog (st : State) : State :=
  setMobileMenuOpen false (setShowLoginDialog true st).

(** [signOut(); mobileMenuOpen.value = false; await navigateTo('/')] *)
Definition handleLogout (env : Async.Env) : Async.t State unit :=
  (Async.detached (Async.signOut env) ;;
   Async.assign (Async.SetMobileMenuOpen false) (setMobileMenuOpen false) ;;
   Async.await (Async.navigateTo env "/"))%async.

(** [isScrolled.value = window.scrollY > 0] *)
Definition handleScroll (st : State) : State :=
  setIsScrolled (0 <? scrollY st)%Z st.

(** The callback of [watch(() => route.path, ...)]. *)
Definition onRoutePath (st : State) : State :=
  setMobileMenuOpen false st.

(** [(e) => { if (!e.target.closest('header')) mobileMenuOpen.value = false }] *)
Definition clickOutside (e : Event) (st : State) : State :=
  match e with
  | ClickEvent target =>
      match closest "header" target with
      | None => setMobileMenuOpen false st
      | Some _ => st
      end
  | ScrollEvent => st
  end.

Definition callListener (l : Listener) (e : Event) (st : State) : State :=
  match l with
  | ClickOutside => clickOutside e st
  | HandleScroll => handleScroll st
  end.

(** The browser delivers [e] on [t]: the callbacks registered for it
    when the event fires run one after the other. *)
Definition dispatchEvent (t : EventTarget) (e : Event) (st : State)
    : State :=
  fold_left (fun s l => callListener l e s)
            (listenersFor t (eventType e) (listeners st)) st.

(** *** Lifecycle *)

(** The callback of [onMounted]. *)
Definition onMounted (st : State) : State :=
  let st1 :=
    setListeners
      (addEventListener sameListener Document ClickType ClickOutside
                        (listeners st)) st in
  let st2 :=
    setListeners
      (addEventListener sameListener Window ScrollType HandleScroll
                        (listeners st1)) st1 in
  handleScroll st2.

Definition callUnmountedHook (h : UnmountedHook) (st : State) : State :=
  match h with
  | CleanUpScrollListener =>
      setListeners
        (removeEventListener sameListener Window ScrollType HandleScroll
                             (listeners st)) st
  end.

(** The script block run once: the refs at their initial values, the
    watcher started, [onUnmounted]'s callback registered. No listener of
    the instance is registered yet. *)
Definition setup (currentPath : string) (currentScrollY : Z) : State :=
  {| routePath := currentPath;
     scrollY := currentScrollY;
     listeners := [];
     mobileMenuOpen := false;
     isScrolled := false;
     showLoginDialog := false;
     lifecycle := Created;
     unmountedHooks := [CleanUpScrollListener] |}.

Definition mount (st : State) : State :=
  setLifecycle Mounted (onMounted st).

Definition unmount (st : State) : State :=
  setLifecycle Unmounted
    (fold_left (fun s h => callUnmountedHook h s) (unmountedHooks st) st).

(** *** What happens to a live instance *)

(** The router moves to [p]. The watcher, which the framework stops at
    unmount, runs its callback when the watched value has changed. *)
Definition routeChange (p : string) (st : State) : State :=
  let st' := setRoutePath p st in
  if Js.strictEq p (routePath st) then st'
  else
    match lifecycle st with
    | Unmounted => st'
    | _ => onRoutePath st'
    end.

(** The window is scrolled to offset [y]. *)
Definition scrollTo (y : Z) (st : State) : State :=
  dispatchEvent Window ScrollEvent (setScrollY y st).

(** A click on [target] reaches the document. *)
Definition click (target : Element) (st : State) : State :=
  dispatchEvent Document (ClickEvent target) st.

Inductive UiEvent : Type :=
| RouteChange (p : string)
| Click (target : Element)
| ScrollTo (y : Z)
| ToggleMobileMenu
| OpenLoginDialog
| Logout (env : Async.Env).

Definition react (e : UiEvent) (st : State) : State :=
  match e with
  | RouteChange p => routeChange p st
  | Click target => click target st
  | ScrollTo y => scrollTo y st
  | ToggleMobileMenu => toggleMobileMenu st
  | OpenLoginDialog => openLoginDialog st
  | Logout env => Async.finalState (handleLogout env st)
  end.

Definition run (es : list UiEvent) (st : State) : State :=
  fold_left (fun s e => react e s) es st.

End Navbar.

(* ===================================================================== *)
(** ** components/layout/DashboardNavbar.vue *)
(* ===================================================================== *)

Module DashboardNavbar.

Import Dom.

(** *** Computed properties of the session *)

(** [computed(() => session.value?.user || null)] *)
Definition user (session : Auth.Session) : option Auth.User :=
  match session with
  | Some d => Auth.sessionUser d
  | None => None
  end.

Definition fullName (session : Auth.Session) : string :=
  match user session with
  | None => "User"
  | Some u =>
      Js.trim (Js.toString (Auth.firstName u) ++ " "
               ++ Js.toString (Auth.lastName u))%string
  end.

Definition initials (session : Auth.Session) : string :=
  match user session with
  | None => "U"
  | Some u =>
      let first := Js.orElse (Js.optIndex0 (Auth.firstName u)) "" in
      let last := Js.orElse (Js.optIndex0 (Auth.lastName u)) "" in
      Js.strOrElse (Js.toUpperCase (first ++ last)%string) "U"
  end.

(** *** The navigation list *)

Record NavigationItem : Type := mkItem {
  id : string;
  name : string;
  path : string;
  icon : string;
  isActive : bool
}.

(** [computed(() => [ ... ])], reading [route.path]. *)
Definition dashboardNavigation (routePath : string) : list NavigationItem :=
  [ {| id := "dashboard"; name := "Dashboard"; path := "/dashboard";
       icon := "lucide:layout-dashboard";
       isActive := Js.strictEq routePath "/dashboard" |};
    {| id := "course"; name := "Course"; path := "/dashboard/course";
       icon := "lucide:book";
       isActive := Js.startsWith routePath "/dashboard/course" |};
    {| id := "jobs"; name := "Jobs"; path := "/dashboard/jobs";
       icon := "lucide:briefcase";
       isActive := Js.startsWith routePath "/dashboard/jobs" |};
    {| id := "programs"; name := "Programs"; path := "/dashboard/programs";
       icon := "lucide:school";
       isActive := Js.startsWith routePath "/dashboard/programs" |} ].

(** *** Component state *)

(** The one callback given to [addEventListener]. *)
Inductive Listener : Type := HandleClickOutside.

Definition sameListener (a b : Listener) : bool :=
  match a, b with
  | HandleClickOutside, HandleClickOutside => true
  end.

(** The callbacks given to [onUnmounted]. *)
Inductive UnmountedHook : Type := RemoveClickOutside.

Record State : Type := mkState {
  routePath : string;                       (* route.path *)
  listeners : list (Registration Listener); (* of window and document *)
  mobileMenuOpen : bool;
  lifecycle : Lifecycle;
  unmountedHooks : list UnmountedHook
}.

Definition setRoutePath (p : string) (st : State) : State :=
  mkState p (listeners st) (mobileMenuOpen st) (lifecycle st)
          (unmountedHooks st).

Definition setListeners (ls : list (Registration Listener)) (st : State)
    : State :=
  mkState (routePath st) ls (mobileMenuOpen st) (lifecycle st)
          (unmountedHooks st).

Definition setMobileMenuOpen (b : bool) (st : State) : State :=
  mkState (routePath st) (listeners st) b (lifecycle st) (unmountedHooks st).

Definition setLifecycle (l : Lifecycle) (st : State) : State :=
  mkState (routePath st) (listeners st) (mobileMenuOpen st) l
          (unmountedHooks st).

Definition setUnmountedHooks (hs : list UnmountedHook) (st : State)
    : State :=
  mkState (routePath st) (listeners st) (mobileMenuOpen st) (lifecycle st) hs.

(** *** Handlers *)

(** [mobileMenuOpen.value = false; await signOut(); await navigateTo('/')] *)
Definition handleLogout (env : Async.Env) : Async.t State unit :=
  (Async.assign (Async.SetMobileMenuOpen false) (setMobileMenuOpen false) ;;
   Async.await (Async.signOut env) ;;
   Async.await (Async.navigateTo env "/"))%async.

(** The callback of [watch(() => route.path, ...)]. *)
Definition onRoutePath (st : State) : State :=
  setMobileMenuOpen false st.

(** [(event) => { if (!event.target.closest('header')) mobileMenuOpen.value = false }] *)
Definition handleClickOutside (e : Event) (st : State) : State :=
  match e with
  | ClickEvent target =>
      match closest "header" target with
      | None => setMobileMenuOpen false st
      | Some _ => st
      end
  | ScrollEvent => st
  end.

Definition callListener (l : Listener) (e : Event) (st : State) : State :=
  match l with
  | HandleClickOutside => handleClickOutside e st
  end.

Definition dispatchEvent (t : EventTarget) (e : Event) (st : State)
    : State :=
  fold_left (fun s l => callListener l e s)
            (listenersFor t (eventType e) (listeners st)) st.

(** *** Lifecycle *)

(** The callback of [onMounted]: it registers the click listener and,
    by calling [onUnmounted] itself, the hook that removes it. *)
Definition onMounted (st : State) : State :=
  let st1 :=
    setListeners
      (addEventListener sameListener Document ClickType HandleClickOutside
                        (listeners st)) st in
  setUnmountedHooks (unmountedHooks st1 ++ [RemoveClickOutside]) st1.

Definition callUnmountedHook (h : UnmountedHook) (st : State) : State :=
  match h with
  | RemoveClickOutside =>
      setListeners
        (removeEventListener sameListener Document ClickType
                             HandleClickOutside (listeners st)) st
  end.

(** The script block run once: no [onUnmounted] callback yet. *)
Definition setup (currentPath : string) : State :=
  {| routePath := currentPath;
     listeners := [];
     mobileMenuOpen := false;
     lifecycle := Created;
     unmountedHooks := [] |}.

Definition mount (st : State) : State :=
  setLifecycle Mounted (onMounted st).

Definition unmount (st : State) : State :=
  setLifecycle Unmounted
    (fold_left (fun s h => callUnmountedHook h s) (unmountedHooks st) st).

(** *** What happens to a live instance *)

Definition routeChange (p : string) (st : State) : State :=
  let st' := setRoutePath p st in
  if Js.strictEq p (routePath st) then st'
  else
    match lifecycle st with
    | Unmounted => st'
    | _ => onRoutePath st'
    end.

Definition click (target : Element) (st : State) : State :=
  dispatchEvent Document (ClickEvent target) st.

Inductive UiEvent : Type :=
| RouteChange (p : string)
| Click (target : Element)
| CloseMobileMenu           (* a link of the mobile menu is chosen *)
| Logout (env : Async.Env).

Definition react (e : UiEvent) (st : State) : State :=
  match e with
  | RouteChange p => routeChange p st
  | Click target => click target st
  | CloseMobileMenu => setMobileMenuOpen false st
  | Logout env => Async.finalState (handleLogout env st)
  end.

Definition run (es : list UiEvent) (st : State) : State :=
  fold_left (fun s e => react e s) es st.

End DashboardNavbar.

(* ===================================================================== *)
(** ** The active-match policy, as the specification words it *)
(* ===================================================================== *)

(** Exact match for the root path of a navbar, prefix match for every
    other item path. *)
Definition activePolicy (rootPath itemPath routePath : string) : bool :=
  if String.eqb itemPath rootPath then String.eqb routePath rootPath
  else String.prefix itemPath routePath.

(** How many entries of a list of flags are set. *)
Definition countActive (flags : list bool) : nat :=
  length (filter (fun b => b) flags).

(* ===================================================================== *)
(** ** Display state derived from the session *)
(* ===================================================================== *)

Lemma trimEnd_append_space (s : string) :
  Js.trimEnd (s ++ " ")%string = Js.trimEnd s.
Proof.
  induction s as [|c s IH]; [reflexivity|].
  simpl. rewrite IH. reflexivity.
Qed.

(** The separator of the template literal disappears when nothing
    follows it. *)
Lemma trim_append_space (s : string) :
  Js.trim (s ++ " ")%string = Js.trim s.
Proof.
  unfold Js.trim.
  induction s as [|c s IH]; [reflexivity|].
  simpl. destruct (Js.isWhiteSpace c); [exact IH|].
  apply (trimEnd_append_space (String c s)).
Qed.

Lemma toUpperCase_unit (c : ascii) :
  Js.strOrElse (Js.toUpperCase (String c "")) "U"
  = String (Js.toUpperCaseUnit c) "".
Proof. reflexivity. Qed.

(** With an empty last name the full name is the trimmed first name, in
    both components. *)
Lemma fullName_empty_lastName (first : string) :
  Navbar.fullName (Auth.sessionOf (Js.Str first) (Js.Str "")) = Js.trim first
  /\ DashboardNavbar.fullName (Auth.sessionOf (Js.Str first) (Js.Str ""))
     = Js.trim first.
Proof.
  unfold Navbar.fullName, DashboardNavbar.fullName; simpl.
  replace (first ++ " ")%string with (first ++ " " ++ "")%string by reflexivity.
  split; apply trim_append_space.
Qed.

(** With a non-empty first name and no last name the initials are the
    first code unit of the first name in upper case, in both
    components. *)
Lemma initials_first_name_only (c : ascii) (rest : string) (last : Js.Value) :
  Auth.absentName last ->
  Navbar.initials (Auth.sessionOf (Js.Str (String c rest)) last)
  = String (Js.toUpperCaseUnit c) ""
  /\ DashboardNavbar.initials (Auth.sessionOf (Js.Str (String c rest)) last)
     = String (Js.toUpperCaseUnit c) "".
Proof.
  intros [-> | [-> | ->]]; split; reflexivity.
Qed.

(** The fallback of the initials is taken exactly when neither name has
    a first code unit. *)
Lemma initials_both_absent (first last : Js.Value) :
  Auth.absentName first -> Auth.absentName last ->
  Navbar.initials (Auth.sessionOf first last) = "U"
  /\ DashboardNavbar.initials (Auth.sessionOf first last) = "U".
Proof.
  intros [-> | [-> | ->]] [-> | [-> | ->]]; split; reflexivity.
Qed.

(** With a missing or null last name the template literal spells the
    property out before the string is trimmed, in both components. *)
Lemma fullName_nullish_lastName (first : string) :
  Navbar.fullName (Auth.sessionOf (Js.Str first) Js.Undefined)
  = Js.trim (first ++ " undefined")%string
  /\ DashboardNavbar.fullName (Auth.sessionOf (Js.Str first) Js.Undefined)
     = Js.trim (first ++ " undefined")%string
  /\ Navbar.fullName (Auth.sessionOf (Js.Str first) Js.Null)
     = Js.trim (first ++ " null")%string
  /\ DashboardNavbar.fullName (Auth.sessionOf (Js.Str first) Js.Null)
     = Js.trim (first ++ " null")%string.
Proof.
  repeat split.
Qed.

(** C2, where the code departs from it: without a session the dashboard
    navbar shows the name "User", not the empty string. *)
Lemma C2_dashboard_fullName_is_User :
  DashboardNavbar.user None = None
  /\ DashboardNavbar.fullName None = "User"
  /\ DashboardNavbar.fullName None <> "".
Proof.
  repeat split. discriminate.
Qed.

(** C2, amended. When the session has no user: in the public navbar
    fullName is the empty string and initials is "U"; in the dashboard
    navbar fullName is "User" and initials is "U"; isAuthenticated, which
    only the public navbar has and which reads the status alone, is false
    for every status other than authenticated. *)
Theorem C2_absent_session (session : Auth.Session) (status : Auth.Status) :
  Navbar.user session = None ->
  status <> Auth.Authenticated ->
  Navbar.isAuthenticated status = false
  /\ Navbar.fullName session = ""
  /\ Navbar.initials session = "U"
  /\ DashboardNavbar.fullName session = "User"
  /\ DashboardNavbar.initials session = "U".
Proof.
  intros Hu Hs.
  assert (Hd : DashboardNavbar.user session = None) by exact Hu.
  unfold Navbar.fullName, Navbar.initials, DashboardNavbar.fullName,
    DashboardNavbar.initials.
  rewrite Hu, Hd.
  repeat split.
  destruct status; [reflexivity | contradiction | reflexivity].
Qed.

Lemma C2_absent_session_witness :
  Navbar.isAuthenticated Auth.Unauthenticated = false
  /\ Navbar.fullName None = ""
  /\ Navbar.initials None = "U"
  /\ DashboardNavbar.fullName None = "User"
  /\ DashboardNavbar.initials None = "U".
Proof.
  apply (C2_absent_session None Auth.Unauthenticated).
  - reflexivity.
  - discriminate.
Defined.

(** C3. For a user with only a first name set, the last name being the
    empty string, both components compute the upper-cased first letter of
    the first name as initials (the letter taken in the ASCII range) and
    the trimmed first name as full name; the fallback "U" is what the
    initials are when both names are empty. *)
Theorem C3_first_name_only (c : ascii) (rest : string) :
  Js.isAsciiUnit c = true ->
  Navbar.initials (Auth.sessionOf (Js.Str (String c rest)) (Js.Str ""))
  = String (Js.toUpperCaseUnit c) ""
  /\ DashboardNavbar.initials
       (Auth.sessionOf (Js.Str (String c rest)) (Js.Str ""))
     = String (Js.toUpperCaseUnit c) ""
  /\ Navbar.fullName (Auth.sessionOf (Js.Str (String c rest)) (Js.Str ""))
     = Js.trim (String c rest)
  /\ DashboardNavbar.fullName
       (Auth.sessionOf (Js.Str (String c rest)) (Js.Str ""))
     = Js.trim (String c rest)
  /\ Navbar.initials (Auth.sessionOf (Js.Str "") (Js.Str "")) = "U"
  /\ DashboardNavbar.initials (Auth.sessionOf (Js.Str "") (Js.Str "")) = "U".
Proof.
  intros _.
  destruct (fullName_empty_lastName (String c rest)) as (Hn & Hd).
  repeat split; assumption.
Qed.

Lemma C3_first_name_only_witness :
  Navbar.initials (Auth.sessionOf (Js.Str "alice") (Js.Str "")) = "A"
  /\ DashboardNavbar.initials (Auth.sessionOf (Js.Str "alice") (Js.Str ""))
     = "A"
  /\ Navbar.fullName (Auth.sessionOf (Js.Str "alice") (Js.Str "")) = "alice"
  /\ DashboardNavbar.fullName (Auth.sessionOf (Js.Str "alice") (Js.Str ""))
     = "alice"
  /\ Navbar.initials (Auth.sessionOf (Js.Str "") (Js.Str "")) = "U"
  /\ DashboardNavbar.initials (Auth.sessionOf (Js.Str "") (Js.Str "")) = "U".
Proof.
  apply (C3_first_name_only "a"%char "lice").
  reflexivity.
Defined.

(* ===================================================================== *)
(** ** Navigation items *)
(* ===================================================================== *)

(** Two prefixes of one string are comparable. *)
Lemma prefix_comparable (a b p : string) :
  String.prefix a p = true ->
  String.prefix b p = true ->
  String.prefix a b = true \/ String.prefix b a = true.
Proof.
  revert a b.
  induction p as [|c p IH]; intros a b Ha Hb.
  - destruct a; [left; destruct b; reflexivity | discriminate].
  - destruct a as [|x a]; [left; destruct b; reflexivity|].
    destruct b as [|y b]; [right; reflexivity|].
    simpl in Ha, Hb.
    destruct (ascii_dec x c) as [->|]; [|discriminate].
    destruct (ascii_dec y c) as [->|]; [|discriminate].
    simpl. destruct (ascii_dec c c) as [_|n]; [|now elim n].
    now apply IH.
Qed.

(** Item paths none of which starts with another cannot both be
    prefixes of the route path. *)
Lemma prefix_exclusive (a b p : string) :
  String.prefix a b = false ->
  String.prefix b a = false ->
  String.prefix a p = true ->
  String.prefix b p = true ->
  False.
Proof.
  intros Hab Hba Ha Hb.
  destruct (prefix_comparable a b p Ha Hb) as [H | H]; congruence.
Qed.

Ltac two_prefixes :=
  match goal with
  | H1 : String.prefix ?a ?p = true, H2 : String.prefix ?b ?p = true |- _ =>
      exfalso; apply (prefix_exclusive a b p); [reflexivity | reflexivity | exact H1 | exact H2]
  end.

(** C1. In both navbars every item's active flag is the policy's value at
    the current path: for the home item (path "/" in the public navbar,
    "/dashboard" in the dashboard navbar) the path equals that root path,
    for every other item the path starts with the item's path; the item
    paths themselves do not depend on the route. *)
Theorem C1_active_flags_follow_policy (p : string) :
  Forall (fun m => Navbar.isActive m = activePolicy "/" (Navbar.path m) p)
         (Navbar.navigationMenus p)
  /\ map Navbar.path (Navbar.navigationMenus p)
     = ["/"; "/courses"; "/opportunities"; "/programs"; "/about-us";
        "/contact"]
  /\ Forall (fun m => DashboardNavbar.isActive m
                      = activePolicy "/dashboard" (DashboardNavbar.path m) p)
            (DashboardNavbar.dashboardNavigation p)
  /\ map DashboardNavbar.path (DashboardNavbar.dashboardNavigation p)
     = ["/dashboard"; "/dashboard/course"; "/dashboard/jobs";
        "/dashboard/programs"].
Proof.
  repeat split; repeat constructor.
Qed.

(** C6. In the public navbar, on "/" the home item is the only active
    one, and on "/courses/123" the courses item is the only active one. *)
Theorem C6_public_navbar_test_paths :
  map Navbar.id (filter Navbar.isActive (Navbar.navigationMenus "/"))
  = ["home"]
  /\ map Navbar.id
         (filter Navbar.isActive (Navbar.navigationMenus "/courses/123"))
     = ["courses"].
Proof.
  split; reflexivity.
Qed.

(** C10. Whatever the route path, at most one item of the public
    navbar's six and at most one of the dashboard navbar's four is
    active. *)
Theorem C10_at_most_one_active (p : string) :
  countActive (map Navbar.isActive (Navbar.navigationMenus p)) <= 1
  /\ countActive
       (map DashboardNavbar.isActive (DashboardNavbar.dashboardNavigation p))
     <= 1.
Proof.
  unfold countActive, Navbar.navigationMenus,
    DashboardNavbar.dashboardNavigation.
  cbn [map Navbar.isActive DashboardNavbar.isActive].
  unfold Js.strictEq, Js.startsWith.
  split.
  - destruct (String.eqb p "/") eqn:E0.
    + apply String.eqb_eq in E0; subst p; simpl; lia.
    + destruct (String.prefix "/courses" p) eqn:E1;
        destruct (String.prefix "/opportunities" p) eqn:E2;
        destruct (String.prefix "/programs" p) eqn:E3;
        destruct (String.prefix "/about-us" p) eqn:E4;
        destruct (String.prefix "/contact" p) eqn:E5;
        simpl; try lia; two_prefixes.
  - destruct (String.eqb p "/dashboard") eqn:E0.
    + apply String.eqb_eq in E0; subst p; simpl; lia.
    + destruct (String.prefix "/dashboard/course" p) eqn:E1;
        destruct (String.prefix "/dashboard/jobs" p) eqn:E2;
        destruct (String.prefix "/dashboard/programs" p) eqn:E3;
        simpl; try lia; two_prefixes.
Qed.

(* ===================================================================== *)
(** ** Transient state: what the events leave untouched *)
(* ===================================================================== *)

Module NavbarFacts.

Import Dom Navbar.

(** No listener touches the wiring of the instance. *)
Lemma callListener_wiring (l : Listener) (e : Event) (st : State) :
  listeners (callListener l e st) = listeners st
  /\ unmountedHooks (callListener l e st) = unmountedHooks st
  /\ scrollY (callListener l e st) = scrollY st.
Proof.
  destruct l, e as [target|]; simpl; try (destruct (closest "header" target));
    repeat split.
Qed.

Lemma fold_callListener_wiring (e : Event) (ls : list Listener) (st : State) :
  let st' := fold_left (fun s l => callListener l e s) ls st in
  listeners st' = listeners st
  /\ unmountedHooks st' = unmountedHooks st
  /\ scrollY st' = scrollY st.
Proof.
  revert st. induction ls as [|l ls IH]; intros st; simpl; [repeat split|].
  destruct (IH (callListener l e st)) as (H1 & H2 & H3).
  destruct (callListener_wiring l e st) as (K1 & K2 & K3).
  repeat split; congruence.
Qed.

Lemma react_wiring (ev : UiEvent) (st : State) :
  listeners (react ev st) = listeners st
  /\ unmountedHooks (react ev st) = unmountedHooks st.
Proof.
  destruct ev as [p | target | y | | | env]; simpl.
  - unfold routeChange.
    destruct (Js.strictEq p (routePath st)), (lifecycle st); split; reflexivity.
  - destruct (fold_callListener_wiring (ClickEvent target)
                (listenersFor Document ClickType (listeners st)) st)
      as (H1 & H2 & _).
    split; assumption.
  - destruct (fold_callListener_wiring ScrollEvent
                (listenersFor Window ScrollType (listeners (setScrollY y st)))
                (setScrollY y st)) as (H1 & H2 & _).
    split; assumption.
  - split; reflexivity.
  - split; reflexivity.
  - split; reflexivity.
Qed.

Lemma run_wiring (es : list UiEvent) (st : State) :
  listeners (run es st) = listeners st
  /\ unmountedHooks (run es st) = unmountedHooks st.
Proof.
  revert st. induction es as [|ev es IH]; intros st; simpl; [split; reflexivity|].
  destruct (IH (react ev st)) as (H1 & H2).
  destruct (react_wiring ev st) as (K1 & K2).
  split; congruence.
Qed.

(** A registered callback is among those its event invokes. *)
Lemma registered_is_invoked (t : EventTarget) (ty : EventType) (l : Listener)
    (regs : list (Registration Listener)) :
  In (t, ty, l) regs ->
  existsb (sameListener l) (listenersFor t ty regs) = true.
Proof.
  induction regs as [|[[t' ty'] l'] regs IH]; simpl; [contradiction|].
  intros [E | Hin].
  - inversion E; subst. unfold listenersFor; simpl.
    destruct t, ty, l; reflexivity.
  - specialize (IH Hin). unfold listenersFor in *; simpl.
    destruct (targetEqb t' t && typeEqb ty' ty); simpl; [|exact IH].
    rewrite IH. apply orb_true_r.
Qed.

(** What a click does to the menu flag, given the callbacks it runs. *)
Lemma fold_click_mobileMenuOpen (target : Element) (ls : list Listener)
    (st : State) :
  mobileMenuOpen
    (fold_left (fun s l => callListener l (ClickEvent target) s) ls st)
  = match closest "header" target with
    | None =>
        if existsb (sameListener ClickOutside) ls then false
        else mobileMenuOpen st
    | Some _ => mobileMenuOpen st
    end.
Proof.
  revert st. induction ls as [|l ls IH]; intros st; simpl.
  - destruct (closest "header" target); reflexivity.
  - rewrite IH. destruct l; simpl; destruct (closest "header" target);
      simpl; try reflexivity.
    destruct (existsb (sameListener ClickOutside) ls); reflexivity.
Qed.

(** What a scroll event does to the shadow flag, given the callbacks
    it runs. *)
Lemma fold_scroll_isScrolled (ls : list Listener) (st : State) :
  isScrolled (fold_left (fun s l => callListener l ScrollEvent s) ls st)
  = if existsb (sameListener HandleScroll) ls then (0 <? scrollY st)%Z
    else isScrolled st.
Proof.
  revert st. induction ls as [|l ls IH]; intros st; simpl; [reflexivity|].
  rewrite IH. destruct l; simpl; [reflexivity|].
  destruct (existsb (sameListener HandleScroll) ls); reflexivity.
Qed.

End NavbarFacts.

Module DashboardFacts.

Import Dom DashboardNavbar.

Lemma dash_fold_callListener_wiring (e : Event) (ls : list Listener) (st : State) :
  let st' := fold_left (fun s l => callListener l e s) ls st in
  listeners st' = listeners st /\ unmountedHooks st' = unmountedHooks st.
Proof.
  revert st. induction ls as [|l ls IH]; intros st; simpl; [split; reflexivity|].
  destruct (IH (callListener l e st)) as (H1 & H2).
  rewrite H1, H2.
  destruct l, e as [target|]; simpl; try (destruct (closest "header" target));
    split; reflexivity.
Qed.

Lemma dash_react_wiring (ev : UiEvent) (st : State) :
  listeners (react ev st) = listeners st
  /\ unmountedHooks (react ev st) = unmountedHooks st.
Proof.
  destruct ev as [p | target | | env]; simpl.
  - unfold routeChange.
    destruct (Js.strictEq p (routePath st)), (lifecycle st); split; reflexivity.
  - apply dash_fold_callListener_wiring.
  - split; reflexivity.
  - unfold handleLogout, Async.finalState, Async.bind, Async.await,
      Async.assign, Async.signOut, Async.navigateTo.
    destruct (Async.signOutSettles env); split; reflexivity.
Qed.

Lemma dash_run_wiring (es : list UiEvent) (st : State) :
  listeners (run es st) = listeners st
  /\ unmountedHooks (run es st) = unmountedHooks st.
Proof.
  revert st. induction es as [|ev es IH]; intros st; simpl; [split; reflexivity|].
  destruct (IH (react ev st)) as (H1 & H2).
  destruct (dash_react_wiring ev st) as (K1 & K2).
  split; congruence.
Qed.

Lemma dash_registered_is_invoked (t : EventTarget) (ty : EventType) (l : Listener)
    (regs : list (Registration Listener)) :
  In (t, ty, l) regs ->
  existsb (sameListener l) (listenersFor t ty regs) = true.
Proof.
  induction regs as [|[[t' ty'] l'] regs IH]; simpl; [contradiction|].
  intros [E | Hin].
  - inversion E; subst. unfold listenersFor; simpl.
    destruct t, ty, l; reflexivity.
  - specialize (IH Hin). unfold listenersFor in *; simpl.
    destruct (targetEqb t' t && typeEqb ty' ty); simpl; [|exact IH].
    rewrite IH. apply orb_true_r.
Qed.

Lemma dash_fold_click_mobileMenuOpen (target : Element) (ls : list Listener)
    (st : State) :
  mobileMenuOpen
    (fold_left (fun s l => callListener l (ClickEvent target) s) ls st)
  = match closest "header" target with
    | None =>
        if existsb (sameListener HandleClickOutside) ls then false
        else mobileMenuOpen st
    | Some _ => mobileMenuOpen st
    end.
Proof.
  revert st. induction ls as [|l ls IH]; intros st; simpl.
  - destruct (closest "header" target); reflexivity.
  - rewrite IH. destruct l; simpl; destruct (closest "header" target);
      simpl; try reflexivity.
    destruct (existsb (sameListener HandleClickOutside) ls); reflexivity.
Qed.

End DashboardFacts.

(* ===================================================================== *)
(** ** Lifecycle, logout, route changes, clicks and scrolling *)
(* ===================================================================== *)

(** The dashboard navbar releases what it registered: after mount, any
    events, and unmount, no listener of the instance is left. *)
Lemma dashboard_listeners_released (p : string)
    (es : list DashboardNavbar.UiEvent) :
  DashboardNavbar.listeners
    (DashboardNavbar.unmount
       (DashboardNavbar.run es
          (DashboardNavbar.mount (DashboardNavbar.setup p))))
  = [].
Proof.
  unfold DashboardNavbar.unmount.
  destruct (DashboardFacts.dash_run_wiring es
              (DashboardNavbar.mount (DashboardNavbar.setup p))) as (H1 & H2).
  simpl DashboardNavbar.listeners. rewrite H2. simpl. rewrite H1. reflexivity.
Qed.

(** The public navbar removes its scroll listener at unmount. *)
Lemma navbar_scroll_listener_released (p : string) (y : Z)
    (es : list Navbar.UiEvent) :
  ~ In (Dom.Window, Dom.ScrollType, Navbar.HandleScroll)
       (Navbar.listeners
          (Navbar.unmount (Navbar.run es (Navbar.mount (Navbar.setup p y))))).
Proof.
  unfold Navbar.unmount.
  destruct (NavbarFacts.run_wiring es (Navbar.mount (Navbar.setup p y)))
    as (H1 & H2).
  simpl Navbar.listeners. rewrite H2. simpl. rewrite H1. simpl.
  intros [H | []]; discriminate.
Qed.

(** C4, on the public navbar. After the instance is set up, mounted, has
    reacted to any events and is unmounted, one listener it added is
    still registered: the click listener on the document. Only the scroll
    listener is removed. *)
Theorem C4_navbar_click_listener_stays (p : string) (y : Z)
    (es : list Navbar.UiEvent) :
  Navbar.listeners
    (Navbar.unmount (Navbar.run es (Navbar.mount (Navbar.setup p y))))
  = [(Dom.Document, Dom.ClickType, Navbar.ClickOutside)].
Proof.
  unfold Navbar.unmount.
  destruct (NavbarFacts.run_wiring es (Navbar.mount (Navbar.setup p y)))
    as (H1 & H2).
  simpl Navbar.listeners. rewrite H2. simpl. rewrite H1. reflexivity.
Qed.

(** C5, where the code departs from it: the dashboard navbar's logout
    does not start with the sign-out. *)
Lemma C5_dashboard_logout_other_order :
  Async.trace
    (DashboardNavbar.handleLogout
       (Async.mkEnv (Async.Fulfilled tt) (Async.Fulfilled tt))
       (DashboardNavbar.mount (DashboardNavbar.setup "/dashboard")))
  <> [Async.SignOut; Async.SetMobileMenuOpen false; Async.NavigateTo "/"].
Proof.
  discriminate.
Qed.

(** C5, amended. The public navbar's logout invokes the sign-out without
    waiting for it, then sets the mobile-menu flag to false, then
    navigates to "/". The dashboard navbar's logout sets the flag to
    false first, then invokes the sign-out and waits for it, then
    navigates to "/"; when the sign-out fails it stops there. In both the
    flag is false afterwards. *)
Theorem C5_logout_order (env : Async.Env) (s : Navbar.State)
    (d : DashboardNavbar.State) :
  Async.trace (Navbar.handleLogout env s)
  = [Async.SignOut; Async.SetMobileMenuOpen false; Async.NavigateTo "/"]
  /\ Navbar.mobileMenuOpen (Async.finalState (Navbar.handleLogout env s))
     = false
  /\ Async.trace (DashboardNavbar.handleLogout env d)
     = match Async.signOutSettles env with
       | Async.Fulfilled _ =>
           [Async.SetMobileMenuOpen false; Async.SignOut;
            Async.NavigateTo "/"]
       | Async.Rejected => [Async.SetMobileMenuOpen false; Async.SignOut]
       end
  /\ DashboardNavbar.mobileMenuOpen
       (Async.finalState (DashboardNavbar.handleLogout env d))
     = false.
Proof.
  unfold Navbar.handleLogout, DashboardNavbar.handleLogout, Async.trace,
    Async.finalState, Async.bind, Async.await, Async.detached, Async.assign,
    Async.signOut, Async.navigateTo.
  destruct (Async.signOutSettles env); repeat split.
Qed.

(** C7. In both navbars, for a live instance, a change of the route path
    leaves the mobile menu closed, whatever the flag was before. *)
Theorem C7_route_change_closes_menu (p : string) (s : Navbar.State)
    (d : DashboardNavbar.State) :
  Navbar.lifecycle s <> Unmounted ->
  DashboardNavbar.lifecycle d <> Unmounted ->
  p <> Navbar.routePath s ->
  p <> DashboardNavbar.routePath d ->
  Navbar.mobileMenuOpen (Navbar.routeChange p s) = false
  /\ DashboardNavbar.mobileMenuOpen (DashboardNavbar.routeChange p d) = false.
Proof.
  intros Ls Ld Ps Pd.
  unfold Navbar.routeChange, DashboardNavbar.routeChange, Js.strictEq.
  apply String.eqb_neq in Ps, Pd. rewrite Ps, Pd.
  destruct (Navbar.lifecycle s), (DashboardNavbar.lifecycle d);
    try contradiction; split; reflexivity.
Qed.

Lemma C7_route_change_closes_menu_witness :
  let s := Navbar.toggleMobileMenu (Navbar.mount (Navbar.setup "/" 0)) in
  let d := DashboardNavbar.setMobileMenuOpen true
             (DashboardNavbar.mount (DashboardNavbar.setup "/dashboard")) in
  (Navbar.mobileMenuOpen s = true /\ DashboardNavbar.mobileMenuOpen d = true)
  /\ Navbar.mobileMenuOpen (Navbar.routeChange "/courses" s) = false
  /\ DashboardNavbar.mobileMenuOpen (DashboardNavbar.routeChange "/courses" d)
     = false.
Proof.
  split; [split; reflexivity|].
  apply (C7_route_change_closes_menu "/courses"
           (Navbar.toggleMobileMenu (Navbar.mount (Navbar.setup "/" 0)))
           (DashboardNavbar.setMobileMenuOpen true
              (DashboardNavbar.mount (DashboardNavbar.setup "/dashboard"))));
    simpl; discriminate.
Defined.

(** The listener asks for any enclosing header: a target within the
    header [h] of the navbar has one. *)
Lemma within_header_has_closest (h : nat) (target : Dom.NodePath) :
  In (Dom.mkNode "header" h) target ->
  Dom.within h target = true
  /\ Dom.closest "header" (Dom.tagsOf target) <> None.
Proof.
  induction target as [|n target IH]; simpl; [contradiction|].
  intros [E | Hin].
  - subst n. simpl. rewrite Nat.eqb_refl. split; [reflexivity | discriminate].
  - destruct (IH Hin) as (Hw & Hc). rewrite Hw, orb_true_r.
    split; [reflexivity|].
    destruct (String.eqb (Dom.nodeTag n) "header"); [discriminate | exact Hc].
Qed.

(** C8, where the code departs from it: a click on a heading inside the
    header of an article of the page is outside the header element of
    the navbar, and yet it leaves an open mobile menu open, in both
    components. *)
Lemma C8_click_in_another_header_keeps_menu_open :
  let navbarHeader := 2 in
  let target :=
    [Dom.mkNode "h1" 6; Dom.mkNode "header" 5; Dom.mkNode "article" 4;
     Dom.mkNode "main" 3; Dom.mkNode "body" 0] in
  let s := Navbar.toggleMobileMenu (Navbar.mount (Navbar.setup "/" 0)) in
  let d := DashboardNavbar.setMobileMenuOpen true
             (DashboardNavbar.mount (DashboardNavbar.setup "/dashboard")) in
  Dom.within navbarHeader target = false
  /\ Navbar.mobileMenuOpen (Navbar.click (Dom.tagsOf target) s) <> false
  /\ DashboardNavbar.mobileMenuOpen
       (DashboardNavbar.click (Dom.tagsOf target) d) <> false.
Proof.
  repeat split; discriminate.
Qed.

(** C8, amended. In both navbars, while the click listener is
    registered, a click on the document whose target has no header
    element around it at all sets the mobile-menu flag to false, and a
    click whose target is inside any header element, the navbar's own or
    another one of the page, leaves the flag as it was. *)
Theorem C8_click_outside_closes_menu (target : Dom.Element)
    (s : Navbar.State) (d : DashboardNavbar.State) :
  In (Dom.Document, Dom.ClickType, Navbar.ClickOutside) (Navbar.listeners s) ->
  In (Dom.Document, Dom.ClickType, DashboardNavbar.HandleClickOutside)
     (DashboardNavbar.listeners d) ->
  Navbar.mobileMenuOpen (Navbar.click target s)
  = match Dom.closest "header" target with
    | None => false
    | Some _ => Navbar.mobileMenuOpen s
    end
  /\ DashboardNavbar.mobileMenuOpen (DashboardNavbar.click target d)
     = match Dom.closest "header" target with
       | None => false
       | Some _ => DashboardNavbar.mobileMenuOpen d
       end.
Proof.
  intros Hs Hd.
  unfold Navbar.click, Navbar.dispatchEvent, DashboardNavbar.click,
    DashboardNavbar.dispatchEvent.
  rewrite NavbarFacts.fold_click_mobileMenuOpen,
    DashboardFacts.dash_fold_click_mobileMenuOpen.
  simpl Dom.eventType.
  rewrite (NavbarFacts.registered_is_invoked _ _ _ _ Hs),
    (DashboardFacts.dash_registered_is_invoked _ _ _ _ Hd).
  split; reflexivity.
Qed.

Lemma C8_click_outside_closes_menu_witness :
  let s := Navbar.toggleMobileMenu (Navbar.mount (Navbar.setup "/" 0)) in
  let d := DashboardNavbar.setMobileMenuOpen true
             (DashboardNavbar.mount (DashboardNavbar.setup "/dashboard")) in
  (Navbar.mobileMenuOpen (Navbar.click ["main"; "body"; "html"] s) = false
   /\ DashboardNavbar.mobileMenuOpen
        (DashboardNavbar.click ["main"; "body"; "html"] d) = false)
  /\ (Navbar.mobileMenuOpen
        (Navbar.click ["button"; "div"; "header"; "body"; "html"] s) = true
      /\ DashboardNavbar.mobileMenuOpen
           (DashboardNavbar.click ["button"; "div"; "header"; "body"; "html"] d)
         = true).
Proof.
  split.
  - apply (C8_click_outside_closes_menu ["main"; "body"; "html"]
             (Navbar.toggleMobileMenu (Navbar.mount (Navbar.setup "/" 0)))
             (DashboardNavbar.setMobileMenuOpen true
                (DashboardNavbar.mount (DashboardNavbar.setup "/dashboard"))));
      simpl; auto.
  - apply (C8_click_outside_closes_menu
             ["button"; "div"; "header"; "body"; "html"]
             (Navbar.toggleMobileMenu (Navbar.mount (Navbar.setup "/" 0)))
             (DashboardNavbar.setMobileMenuOpen true
                (DashboardNavbar.mount (DashboardNavbar.setup "/dashboard"))));
      simpl; auto.
Defined.

(** C9. In the public navbar, while the scroll listener is registered,
    after a scroll event the shadow flag says whether the vertical offset
    is above zero; so scrolling from 0 to a positive offset sets it, and
    scrolling back to 0 clears it. *)
Theorem C9_isScrolled_after_scroll (y : Z) (s : Navbar.State) :
  In (Dom.Window, Dom.ScrollType, Navbar.HandleScroll) (Navbar.listeners s) ->
  Navbar.isScrolled (Navbar.scrollTo y s) = (0 <? y)%Z
  /\ Navbar.isScrolled (Navbar.scrollTo 0 (Navbar.scrollTo y s)) = false.
Proof.
  intros Hs.
  assert (step : forall z st,
             In (Dom.Window, Dom.ScrollType, Navbar.HandleScroll)
                (Navbar.listeners st) ->
             Navbar.isScrolled (Navbar.scrollTo z st) = (0 <? z)%Z).
  { intros z st Hst. unfold Navbar.scrollTo, Navbar.dispatchEvent.
    rewrite NavbarFacts.fold_scroll_isScrolled. simpl Dom.eventType.
    simpl Navbar.listeners.
    rewrite (NavbarFacts.registered_is_invoked _ _ _ _ Hst). reflexivity. }
  split; [apply step; exact Hs|].
  rewrite step; [reflexivity|].
  destruct (NavbarFacts.react_wiring (Navbar.ScrollTo y) s) as (H1 & _).
  simpl in H1. rewrite H1. exact Hs.
Qed.

Lemma C9_isScrolled_after_scroll_witness :
  let s := Navbar.mount (Navbar.setup "/" 0) in
  Navbar.isScrolled s = false
  /\ Navbar.isScrolled (Navbar.scrollTo 120 s) = true
  /\ Navbar.isScrolled (Navbar.scrollTo 0 (Navbar.scrollTo 120 s)) = false.
Proof.
  split; [reflexivity|].
  apply (C9_isScrolled_after_scroll 120 (Navbar.mount (Navbar.setup "/" 0))).
  simpl; auto.
Defined.

(* ===================================================================== *)
(** ** Further properties of the derived display state *)
(* ===================================================================== *)

Lemma toUpperCaseUnit_idempotent (c : ascii) :
  Js.toUpperCaseUnit (Js.toUpperCaseUnit c) = Js.toUpperCaseUnit c.
Proof.
  destruct c as [[] [] [] [] [] [] [] []]; vm_compute; reflexivity.
Qed.

Lemma toUpperCase_idempotent (s : string) :
  Js.toUpperCase (Js.toUpperCase s) = Js.toUpperCase s.
Proof.
  induction s as [|c s IH]; simpl; [reflexivity|].
  rewrite toUpperCaseUnit_idempotent, IH. reflexivity.
Qed.

Lemma trimStart_length (s : string) :
  String.length (Js.trimStart s) <= String.length s.
Proof.
  induction s as [|c s IH]; simpl; [lia|].
  destruct (Js.isWhiteSpace c); simpl; lia.
Qed.

(** A string that [trimStart] keeps whole does not begin with white
    space. *)
Lemma trimStart_fixed_head (c : ascii) (s : string) :
  Js.trimStart (String c s) = String c s -> Js.isWhiteSpace c = false.
Proof.
  simpl. destruct (Js.isWhiteSpace c); [|reflexivity].
  intros H. pose proof (trimStart_length s) as L.
  rewrite H in L. simpl in L. lia.
Qed.

Lemma trimEnd_idempotent (s : string) :
  Js.trimEnd (Js.trimEnd s) = Js.trimEnd s.
Proof.
  induction s as [|c s IH]; [reflexivity|].
  simpl. destruct (Js.trimEnd s) as [|d t] eqn:E.
  - destruct (Js.isWhiteSpace c) eqn:W; [reflexivity|].
    simpl. rewrite W. reflexivity.
  - change (Js.trimEnd (String c (String d t)))
      with (match Js.trimEnd (String d t) with
            | "" => if Js.isWhiteSpace c then "" else String c ""
            | String x r' => String c (String x r')
            end).
    rewrite IH. reflexivity.
Qed.

Lemma trimStart_trimEnd_trimStart (s : string) :
  Js.trimStart (Js.trimEnd (Js.trimStart s)) = Js.trimEnd (Js.trimStart s).
Proof.
  induction s as [|c s IH]; [reflexivity|].
  simpl. destruct (Js.isWhiteSpace c) eqn:W; [exact IH|].
  simpl. destruct (Js.trimEnd s); rewrite ?W; simpl; rewrite W; reflexivity.
Qed.

Lemma trim_idempotent (s : string) : Js.trim (Js.trim s) = Js.trim s.
Proof.
  unfold Js.trim.
  rewrite trimStart_trimEnd_trimStart. apply trimEnd_idempotent.
Qed.

(** When what follows does not trim away, [trimEnd] only works on it. *)
Lemma trimEnd_append (a b : string) :
  Js.trimEnd b <> "" ->
  Js.trimEnd (a ++ b)%string = (a ++ Js.trimEnd b)%string.
Proof.
  intros Hb. induction a as [|c a IH]; [reflexivity|].
  simpl. rewrite IH.
  destruct (a ++ Js.trimEnd b)%string eqn:E; [|reflexivity].
  destruct a; simpl in E; [contradiction | discriminate].
Qed.

(** X1. The avatar fallback is never blank: whatever the session, both
    components compute non-empty initials. *)
Theorem initials_never_empty (session : Auth.Session) :
  Navbar.initials session <> "" /\ DashboardNavbar.initials session <> "".
Proof.
  unfold Navbar.initials, DashboardNavbar.initials, Navbar.user,
    DashboardNavbar.user.
  destruct session as [[[[f l]|]]|]; simpl; try (split; discriminate).
  destruct f as [| |[|a r]], l as [| |[|b r']]; simpl; split; discriminate.
Qed.

(** X2. The initials are in upper case already: converting them again
    changes nothing, in both components and for every session. *)
Theorem initials_upper_case (session : Auth.Session) :
  Js.toUpperCase (Navbar.initials session) = Navbar.initials session
  /\ Js.toUpperCase (DashboardNavbar.initials session)
     = DashboardNavbar.initials session.
Proof.
  unfold Navbar.initials, DashboardNavbar.initials, Navbar.user,
    DashboardNavbar.user.
  destruct session as [[[[f l]|]]|]; simpl; try (split; reflexivity).
  destruct f as [| |[|a r]], l as [| |[|b r']]; simpl;
    rewrite ?toUpperCaseUnit_idempotent; split; reflexivity.
Qed.

(** X3. The displayed name never starts or ends with white space:
    trimming the full name again changes nothing, in both components and
    for every session. *)
Theorem fullName_is_trimmed (session : Auth.Session) :
  Js.trim (Navbar.fullName session) = Navbar.fullName session
  /\ Js.trim (DashboardNavbar.fullName session)
     = DashboardNavbar.fullName session.
Proof.
  unfold Navbar.fullName, DashboardNavbar.fullName, Navbar.user,
    DashboardNavbar.user.
  destruct session as [[[u|]]|]; try (split; reflexivity).
  split; apply trim_idempotent.
Qed.

(** X4. For a user whose first name is non-empty without leading white
    space and whose last name is non-empty without trailing white space,
    the full name is the first name, one space, and the last name, in
    both components. *)
Theorem fullName_of_two_names (first last : string) :
  first <> "" -> last <> "" ->
  Js.trimStart first = first ->
  Js.trimEnd last = last ->
  Navbar.fullName (Auth.sessionOf (Js.Str first) (Js.Str last))
  = (first ++ " " ++ last)%string
  /\ DashboardNavbar.fullName (Auth.sessionOf (Js.Str first) (Js.Str last))
     = (first ++ " " ++ last)%string.
Proof.
  intros Hf Hl Sf El.
  assert (K : Js.trim (first ++ " " ++ last)%string
              = (first ++ " " ++ last)%string).
  { unfold Js.trim.
    destruct first as [|c f]; [contradiction|].
    pose proof (trimStart_fixed_head c f Sf) as W.
    change (Js.trimStart (String c f ++ " " ++ last)%string)
      with (if Js.isWhiteSpace c then Js.trimStart (f ++ " " ++ last)%string
            else (String c f ++ " " ++ last)%string).
    rewrite W.
    assert (T : Js.trimEnd (" " ++ last)%string = (" " ++ last)%string).
    { simpl. rewrite El. destruct last; [contradiction | reflexivity]. }
    rewrite trimEnd_append; rewrite T; [reflexivity | discriminate]. }
  split; exact K.
Qed.

Lemma fullName_of_two_names_witness :
  Navbar.fullName (Auth.sessionOf (Js.Str "Ada") (Js.Str "Lovelace"))
  = "Ada Lovelace"
  /\ DashboardNavbar.fullName (Auth.sessionOf (Js.Str "Ada") (Js.Str "Lovelace"))
     = "Ada Lovelace".
Proof.
  apply (fullName_of_two_names "Ada" "Lovelace");
    [discriminate | discriminate | reflexivity | reflexivity].
Defined.

(** X5. For a user with only a last name (the first name missing, null
    or empty), both components compute the upper-cased first letter of
    the last name as initials, the letter taken in the ASCII range; with
    an empty first name the full name is the trimmed last name. *)
Theorem last_name_only (c : ascii) (rest : string) (first : Js.Value) :
  Js.isAsciiUnit c = true ->
  Auth.absentName first ->
  Navbar.initials (Auth.sessionOf first (Js.Str (String c rest)))
  = String (Js.toUpperCaseUnit c) ""
  /\ DashboardNavbar.initials (Auth.sessionOf first (Js.Str (String c rest)))
     = String (Js.toUpperCaseUnit c) ""
  /\ Navbar.fullName (Auth.sessionOf (Js.Str "") (Js.Str (String c rest)))
     = Js.trim (String c rest)
  /\ DashboardNavbar.fullName
       (Auth.sessionOf (Js.Str "") (Js.Str (String c rest)))
     = Js.trim (String c rest).
Proof.
  intros _ [-> | [-> | ->]]; repeat split.
Qed.

Lemma last_name_only_witness :
  Navbar.initials (Auth.sessionOf Js.Null (Js.Str "lovelace")) = "L"
  /\ DashboardNavbar.initials (Auth.sessionOf Js.Null (Js.Str "lovelace")) = "L"
  /\ Navbar.fullName (Auth.sessionOf (Js.Str "") (Js.Str "lovelace"))
     = "lovelace"
  /\ DashboardNavbar.fullName (Auth.sessionOf (Js.Str "") (Js.Str "lovelace"))
     = "lovelace".
Proof.
  apply (last_name_only "l"%char "ovelace" Js.Null).
  - reflexivity.
  - right; left; reflexivity.
Defined.

(** X6. The two components derive the same initials from every session,
    and the same full name exactly when the session has a user. *)
Theorem components_agree_on_display_state (session : Auth.Session) :
  Navbar.initials session = DashboardNavbar.initials session
  /\ (Navbar.fullName session = DashboardNavbar.fullName session
      <-> Navbar.user session <> None).
Proof.
  split; [reflexivity|].
  unfold Navbar.fullName, DashboardNavbar.fullName, DashboardNavbar.user,
    Navbar.user.
  destruct session as [[[u|]]|]; simpl; split;
    try discriminate; try reflexivity; intros H; now elim H.
Qed.

(* ===================================================================== *)
(** ** Further properties of the navigation lists *)
(* ===================================================================== *)

(** X7. Every item highlights itself and nothing else. On the root path
    of a navbar only its home item is active; on the path of any other
    item followed by anything, a sub-route or not, that item is the only
    active one. *)
Theorem item_active_on_its_own_path (p : string) :
  map Navbar.id (filter Navbar.isActive (Navbar.navigationMenus "/"))
  = ["home"]
  /\ Forall (fun m => forall suffix,
                 map Navbar.id
                     (filter Navbar.isActive
                        (Navbar.navigationMenus (Navbar.path m ++ suffix)%string))
                 = [Navbar.id m])
            (tl (Navbar.navigationMenus p))
  /\ map DashboardNavbar.id
         (filter DashboardNavbar.isActive
            (DashboardNavbar.dashboardNavigation "/dashboard"))
     = ["dashboard"]
  /\ Forall (fun m => forall suffix,
                 map DashboardNavbar.id
                     (filter DashboardNavbar.isActive
                        (DashboardNavbar.dashboardNavigation
                           (DashboardNavbar.path m ++ suffix)%string))
                 = [DashboardNavbar.id m])
            (tl (DashboardNavbar.dashboardNavigation p)).
Proof.
  repeat split; simpl; repeat constructor; intros [|c s]; reflexivity.
Qed.

(** X8. The keys of the rendered lists are unique whatever the route:
    the ids of the public items, the ids of the dashboard items, and the
    names of the dashboard items, which key its mobile list. *)
Theorem navigation_keys_unique (p : string) :
  NoDup (map Navbar.id (Navbar.navigationMenus p))
  /\ NoDup (map DashboardNavbar.id (DashboardNavbar.dashboardNavigation p))
  /\ NoDup (map DashboardNavbar.name (DashboardNavbar.dashboardNavigation p)).
Proof.
  repeat split; simpl;
    repeat (constructor; [simpl; intuition discriminate|]); constructor.
Qed.

(** X9. The two navbars never highlight at once: for every route path,
    at most one item is active in the public and the dashboard list
    taken together. *)
Theorem at_most_one_active_across_navbars (p : string) :
  countActive (map Navbar.isActive (Navbar.navigationMenus p))
  + countActive
      (map DashboardNavbar.isActive (DashboardNavbar.dashboardNavigation p))
  <= 1.
Proof.
  unfold countActive, Navbar.navigationMenus,
    DashboardNavbar.dashboardNavigation.
  cbn [map Navbar.isActive DashboardNavbar.isActive].
  unfold Js.strictEq, Js.startsWith.
  destruct (String.eqb p "/") eqn:E0.
  { apply String.eqb_eq in E0; subst p; simpl; lia. }
  destruct (String.eqb p "/dashboard") eqn:E0'.
  { apply String.eqb_eq in E0'; subst p; simpl; lia. }
  destruct (String.prefix "/courses" p) eqn:E1;
    destruct (String.prefix "/opportunities" p) eqn:E2;
    destruct (String.prefix "/programs" p) eqn:E3;
    destruct (String.prefix "/about-us" p) eqn:E4;
    destruct (String.prefix "/contact" p) eqn:E5;
    destruct (String.prefix "/dashboard/course" p) eqn:E6;
    destruct (String.prefix "/dashboard/jobs" p) eqn:E7;
    destruct (String.prefix "/dashboard/programs" p) eqn:E8;
    simpl; try lia; two_prefixes.
Qed.

(* ===================================================================== *)
(** ** Further properties of the transient state *)
(* ===================================================================== *)

(** The listeners of a public navbar that has been mounted. *)
Lemma navbar_mounted_listeners (p : string) (y : Z) (es : list Navbar.UiEvent) :
  Navbar.listeners (Navbar.run es (Navbar.mount (Navbar.setup p y)))
  = [(Dom.Document, Dom.ClickType, Navbar.ClickOutside);
     (Dom.Window, Dom.ScrollType, Navbar.HandleScroll)].
Proof.
  destruct (NavbarFacts.run_wiring es (Navbar.mount (Navbar.setup p y)))
    as (H & _).
  rewrite H. reflexivity.
Qed.

Lemma navbar_react_keeps_shadow_in_step (e : Navbar.UiEvent)
    (st : Navbar.State) :
  Navbar.listeners st
  = [(Dom.Document, Dom.ClickType, Navbar.ClickOutside);
     (Dom.Window, Dom.ScrollType, Navbar.HandleScroll)] ->
  Navbar.isScrolled st = (0 <? Navbar.scrollY st)%Z ->
  Navbar.isScrolled (Navbar.react e st)
  = (0 <? Navbar.scrollY (Navbar.react e st))%Z.
Proof.
  intros HL HS.
  destruct e as [q | target | z | | | env]; simpl.
  - unfold Navbar.routeChange.
    destruct (Js.strictEq q (Navbar.routePath st)), (Navbar.lifecycle st);
      exact HS.
  - unfold Navbar.click, Navbar.dispatchEvent. rewrite HL. simpl.
    destruct (Dom.closest "header" target); exact HS.
  - unfold Navbar.scrollTo, Navbar.dispatchEvent. simpl Navbar.listeners.
    rewrite HL. reflexivity.
  - exact HS.
  - exact HS.
  - exact HS.
Qed.

(** X10. From mount on, the shadow flag of the public navbar agrees with
    the scroll offset after every sequence of events: the offset is read
    once at mount and again at each scroll event. *)
Theorem shadow_follows_scroll_offset (p : string) (y : Z)
    (es : list Navbar.UiEvent) :
  let st := Navbar.run es (Navbar.mount (Navbar.setup p y)) in
  Navbar.isScrolled st = (0 <? Navbar.scrollY st)%Z.
Proof.
  simpl.
  assert (G : forall st,
             Navbar.listeners st
             = [(Dom.Document, Dom.ClickType, Navbar.ClickOutside);
                (Dom.Window, Dom.ScrollType, Navbar.HandleScroll)] ->
             Navbar.isScrolled st = (0 <? Navbar.scrollY st)%Z ->
             Navbar.isScrolled (Navbar.run es st)
             = (0 <? Navbar.scrollY (Navbar.run es st))%Z).
  { induction es as [|e es IH]; intros st HL HS; [exact HS|].
    simpl. apply IH.
    - destruct (NavbarFacts.react_wiring e st) as (H & _). congruence.
    - apply navbar_react_keeps_shadow_in_step; assumption. }
  apply G; reflexivity.
Qed.

Lemma fold_scroll_mobileMenuOpen (ls : list Navbar.Listener)
    (st : Navbar.State) :
  Navbar.mobileMenuOpen
    (fold_left (fun s l => Navbar.callListener l Dom.ScrollEvent s) ls st)
  = Navbar.mobileMenuOpen st.
Proof.
  revert st. induction ls as [|l ls IH]; intros st; simpl; [reflexivity|].
  rewrite IH. destruct l; reflexivity.
Qed.

(** X11. In the public navbar only the menu button opens the mobile
    menu: any other event leaves a closed menu closed. *)
Theorem only_toggle_opens_menu (e : Navbar.UiEvent) (st : Navbar.State) :
  e <> Navbar.ToggleMobileMenu ->
  Navbar.mobileMenuOpen st = false ->
  Navbar.mobileMenuOpen (Navbar.react e st) = false.
Proof.
  intros He Hc.
  destruct e as [q | target | z | | | env]; simpl.
  - unfold Navbar.routeChange.
    destruct (Js.strictEq q (Navbar.routePath st)), (Navbar.lifecycle st);
      first [exact Hc | reflexivity].
  - unfold Navbar.click, Navbar.dispatchEvent.
    rewrite NavbarFacts.fold_click_mobileMenuOpen, Hc.
    destruct (Dom.closest "header" target); [reflexivity|].
    destruct (existsb _ _); reflexivity.
  - unfold Navbar.scrollTo, Navbar.dispatchEvent.
    rewrite fold_scroll_mobileMenuOpen. exact Hc.
  - contradiction.
  - reflexivity.
  - reflexivity.
Qed.

Lemma only_toggle_opens_menu_witness :
  Navbar.mobileMenuOpen
    (Navbar.react (Navbar.ScrollTo 300) (Navbar.mount (Navbar.setup "/" 0)))
  = false.
Proof.
  apply (only_toggle_opens_menu (Navbar.ScrollTo 300)
           (Navbar.mount (Navbar.setup "/" 0)));
    [discriminate | reflexivity].
Defined.

Lemma dashboard_react_keeps_menu_closed (e : DashboardNavbar.UiEvent)
    (st : DashboardNavbar.State) :
  DashboardNavbar.mobileMenuOpen st = false ->
  DashboardNavbar.mobileMenuOpen (DashboardNavbar.react e st) = false.
Proof.
  intros Hc.
  destruct e as [q | target | | env]; simpl.
  - unfold DashboardNavbar.routeChange.
    destruct (Js.strictEq q (DashboardNavbar.routePath st)),
      (DashboardNavbar.lifecycle st); first [exact Hc | reflexivity].
  - unfold DashboardNavbar.click, DashboardNavbar.dispatchEvent.
    rewrite DashboardFacts.dash_fold_click_mobileMenuOpen, Hc.
    destruct (Dom.closest "header" target); [reflexivity|].
    destruct (existsb _ _); reflexivity.
  - reflexivity.
  - unfold DashboardNavbar.handleLogout, Async.finalState, Async.bind,
      Async.await, Async.assign, Async.signOut, Async.navigateTo.
    destruct (Async.signOutSettles env); reflexivity.
Qed.

(** X12. Nothing in the dashboard navbar opens its mobile menu: from
    setup through mount, any sequence of events, and unmount, the
    mobile-menu flag is false. *)
Theorem dashboard_menu_never_open (p : string)
    (es : list DashboardNavbar.UiEvent) :
  DashboardNavbar.mobileMenuOpen
    (DashboardNavbar.run es (DashboardNavbar.mount (DashboardNavbar.setup p)))
  = false
  /\ DashboardNavbar.mobileMenuOpen
       (DashboardNavbar.unmount
          (DashboardNavbar.run es
             (DashboardNavbar.mount (DashboardNavbar.setup p))))
     = false.
Proof.
  assert (G : forall st,
             DashboardNavbar.mobileMenuOpen st = false ->
             DashboardNavbar.mobileMenuOpen (DashboardNavbar.run es st)
             = false).
  { induction es as [|e es IH]; intros st Hc; [exact Hc|].
    simpl. apply IH, dashboard_react_keeps_menu_closed, Hc. }
  assert (U : forall hs st,
             DashboardNavbar.mobileMenuOpen
               (fold_left (fun s h => DashboardNavbar.callUnmountedHook h s)
                          hs st)
             = DashboardNavbar.mobileMenuOpen st).
  { induction hs as [|h hs IH]; intros st; simpl; [reflexivity|].
    rewrite IH. destruct h; reflexivity. }
  split.
  - apply G. reflexivity.
  - unfold DashboardNavbar.unmount. simpl DashboardNavbar.mobileMenuOpen.
    rewrite U. apply G. reflexivity.
Qed.

(** X13. Pressing the menu button twice restores the state of the public
    navbar. *)
Theorem toggleMobileMenu_twice (st : Navbar.State) :
  Navbar.toggleMobileMenu (Navbar.toggleMobileMenu st) = st.
Proof.
  destruct st as [r y ls m sc d lc hs].
  unfold Navbar.toggleMobileMenu, Navbar.setMobileMenuOpen; simpl.
  rewrite negb_involutive. reflexivity.
Qed.

(** X14. How a logout ends. The public navbar's handler settles as the
    navigation does, whatever becomes of the sign-out; the dashboard
    navbar's handler is rejected when the sign-out is, and settles as the
    navigation does otherwise. Either handler changes nothing in the
    component state but the mobile-menu flag. *)
Theorem logout_settles (env : Async.Env) (s : Navbar.State)
    (d : DashboardNavbar.State) :
  Async.outcome (Navbar.handleLogout env s) = Async.navigateToSettles env
  /\ Async.outcome (DashboardNavbar.handleLogout env d)
     = match Async.signOutSettles env with
       | Async.Fulfilled _ => Async.navigateToSettles env
       | Async.Rejected => Async.Rejected
       end
  /\ Async.finalState (Navbar.handleLogout env s)
     = Navbar.setMobileMenuOpen false s
  /\ Async.finalState (DashboardNavbar.handleLogout env d)
     = DashboardNavbar.setMobileMenuOpen false d.
Proof.
  unfold Navbar.handleLogout, DashboardNavbar.handleLogout, Async.outcome,
    Async.finalState, Async.bind, Async.await, Async.detached, Async.assign,
    Async.signOut, Async.navigateTo.
  destruct (Async.signOutSettles env); repeat split.
Qed.

(** X15. After unmount. The public navbar no longer follows the scroll
    offset, but its click listener still closes the menu of the dead
    instance on a click outside a header; the dashboard navbar no longer
    reacts to clicks at all. *)
Theorem events_after_unmount (p : string) (y z : Z) (target : Dom.Element)
    (es : list Navbar.UiEvent) (ds : list DashboardNavbar.UiEvent) :
  let s := Navbar.unmount (Navbar.run es (Navbar.mount (Navbar.setup p y))) in
  let d := DashboardNavbar.unmount
             (DashboardNavbar.run ds
                (DashboardNavbar.mount (DashboardNavbar.setup p))) in
  Navbar.isScrolled (Navbar.scrollTo z s) = Navbar.isScrolled s
  /\ Navbar.mobileMenuOpen (Navbar.click target s)
     = match Dom.closest "header" target with
       | None => false
       | Some _ => Navbar.mobileMenuOpen s
       end
  /\ DashboardNavbar.click target d = d.
Proof.
  intros s d.
  assert (Ls : Navbar.listeners s
               = [(Dom.Document, Dom.ClickType, Navbar.ClickOutside)]).
  { subst s. unfold Navbar.unmount.
    destruct (NavbarFacts.run_wiring es (Navbar.mount (Navbar.setup p y)))
      as (H1 & H2).
    simpl Navbar.listeners. rewrite H2. simpl. rewrite H1. reflexivity. }
  assert (Ld : DashboardNavbar.listeners d = []).
  { subst d. unfold DashboardNavbar.unmount.
    destruct (DashboardFacts.dash_run_wiring ds
                (DashboardNavbar.mount (DashboardNavbar.setup p)))
      as (H1 & H2).
    simpl DashboardNavbar.listeners. rewrite H2. simpl. rewrite H1.
    reflexivity. }
  clearbody s d.
  repeat split.
  - unfold Navbar.scrollTo, Navbar.dispatchEvent. simpl Navbar.listeners.
    rewrite Ls. reflexivity.
  - unfold Navbar.click, Navbar.dispatchEvent. rewrite Ls. simpl.
    destruct (Dom.closest "header" target); reflexivity.
  - unfold DashboardNavbar.click, DashboardNavbar.dispatchEvent.
    rewrite Ld. reflexivity.
Qed.

(** X17. The outside-click listener does not undo the menu button. The
    button sits inside the header, so the click that toggles the menu and
    then reaches the document leaves the menu toggled. *)
Theorem menu_button_click_toggles (target : Dom.Element) (st : Navbar.State) :
  Dom.closest "header" target <> None ->
  Navbar.mobileMenuOpen (Navbar.click target (Navbar.toggleMobileMenu st))
  = negb (Navbar.mobileMenuOpen st).
Proof.
  intros H.
  unfold Navbar.click, Navbar.dispatchEvent.
  rewrite NavbarFacts.fold_click_mobileMenuOpen.
  destruct (Dom.closest "header" target); [reflexivity | contradiction].
Qed.

Lemma menu_button_click_toggles_witness :
  Navbar.mobileMenuOpen
    (Navbar.click ["button"; "div"; "div"; "div"; "header"; "div"; "body"]
       (Navbar.toggleMobileMenu (Navbar.mount (Navbar.setup "/" 0))))
  = true.
Proof.
  apply (menu_button_click_toggles
           ["button"; "div"; "div"; "div"; "header"; "div"; "body"]
           (Navbar.mount (Navbar.setup "/" 0))).
  simpl. discriminate.
Defined.

Lemma fold_scroll_frame (ls : list Navbar.Listener) (st : Navbar.State) :
  let st' := fold_left (fun s l => Navbar.callListener l Dom.ScrollEvent s)
                       ls st in
  Navbar.routePath st' = Navbar.routePath st
  /\ Navbar.showLoginDialog st' = Navbar.showLoginDialog st
  /\ Navbar.lifecycle st' = Navbar.lifecycle st.
Proof.
  revert st. induction ls as [|l ls IH]; intros st; simpl; [repeat split|].
  destruct (IH (Navbar.callListener l Dom.ScrollEvent st)) as (H1 & H2 & H3).
  rewrite H1, H2, H3. destruct l; repeat split.
Qed.

(** X18. Scrolling touches nothing but the offset and the shadow flag:
    the mobile menu, the login dialog, the route, the listeners and the
    lifecycle phase of the public navbar are as before, in every
    state. *)
Theorem scroll_leaves_the_rest (y : Z) (st : Navbar.State) :
  Navbar.mobileMenuOpen (Navbar.scrollTo y st) = Navbar.mobileMenuOpen st
  /\ Navbar.showLoginDialog (Navbar.scrollTo y st) = Navbar.showLoginDialog st
  /\ Navbar.routePath (Navbar.scrollTo y st) = Navbar.routePath st
  /\ Navbar.listeners (Navbar.scrollTo y st) = Navbar.listeners st
  /\ Navbar.lifecycle (Navbar.scrollTo y st) = Navbar.lifecycle st
  /\ Navbar.scrollY (Navbar.scrollTo y st) = y.
Proof.
  unfold Navbar.scrollTo, Navbar.dispatchEvent.
  destruct (fold_scroll_frame
              (Dom.listenersFor Dom.Window (Dom.eventType Dom.ScrollEvent)
                 (Navbar.listeners (Navbar.setScrollY y st)))
              (Navbar.setScrollY y st)) as (H1 & H2 & H3).
  destruct (NavbarFacts.fold_callListener_wiring Dom.ScrollEvent
              (Dom.listenersFor Dom.Window (Dom.eventType Dom.ScrollEvent)
                 (Navbar.listeners (Navbar.setScrollY y st)))
              (Navbar.setScrollY y st)) as (K1 & _ & K3).
  rewrite fold_scroll_mobileMenuOpen, H1, H2, H3, K1, K3.
  repeat split.
Qed.

(** X19. A route change resets the mobile menu only: the login dialog
    and the shadow flag of the public navbar are left as they were, and
    the new path is recorded. *)
Theorem routeChange_resets_menu_only (p : string) (st : Navbar.State) :
  Navbar.showLoginDialog (Navbar.routeChange p st) = Navbar.showLoginDialog st
  /\ Navbar.isScrolled (Navbar.routeChange p st) = Navbar.isScrolled st
  /\ Navbar.listeners (Navbar.routeChange p st) = Navbar.listeners st
  /\ Navbar.routePath (Navbar.routeChange p st) = p.
Proof.
  unfold Navbar.routeChange.
  destruct (Js.strictEq p (Navbar.routePath st)), (Navbar.lifecycle st);
    repeat split.
Qed.
